(** * blackglass-sentinel: the decision logic of [sentinel.py]

    A shallow embedding of the three tools of [sentinel.py] that carry the
    reliability decision: [assess_human_cost], [active_ui_interdiction] and
    [execute_defense_protocol].

    - A Python [float] is an IEEE 754 binary64 value: [spec_float], compared
      with [SFltb] (the comparison is false as soon as one side is NaN).
    - A Python [str] is a [string], compared with [String.eqb].
    - The calls to [subprocess] are the only effects.  A computation threads
      the sequence of calls issued so far and either returns a value or
      raises; whether a call raises is decided by the host, which is a
      parameter of every run. *)

From Stdlib Require Import ZArith List String Bool Lia.
From Stdlib Require Import SpecFloat.
Import ListNotations.

Open Scope string_scope.

(** ** Python values *)

Module Py.

(** [float]: binary64. *)
Definition float : Type := spec_float.

Definition prec : Z := 53.
Definition emax : Z := 1024.

(** The values a Python [float] can hold. *)
Definition is_binary64 (x : float) : bool := valid_binary prec emax x.

(** [x > y] on floats. *)
Definition gt (x y : float) : bool := SFltb y x.

(** [x <= y] on floats. *)
Definition le (x y : float) : bool := SFleb x y.

(** [math.isfinite x]. *)
Definition isfinite (x : float) : bool :=
  match x with
  | S754_zero _ | S754_finite _ _ _ => true
  | S754_infinity _ | S754_nan => false
  end.

(** [x < 0]. *)
Definition negative (x : float) : bool := SFltb x (S754_zero false).

(** [num / den] lies within half a unit in the last place of the finite
    value [x = (-1)^s * m * 2^e]: [x] is a binary64 value closest to the
    decimal literal [num / den]. *)
Definition closest_to (num den : Z) (x : float) : bool :=
  match x with
  | S754_finite s m e =>
      let n := if s then Z.opp num else num in
      ((2 * Z.pos m - 1) * den <=? 2 * n * 2 ^ (- e))%Z &&
      (2 * n * 2 ^ (- e) <=? (2 * Z.pos m + 1) * den)%Z &&
      (e <? 0)%Z && (0 <? den)%Z
  | _ => false
  end.

(** The int literal [500], converted for the comparison with a float
    (exactly representable: 500 = 8796093022208000 * 2^-44). *)
Definition f500 : float := S754_finite false 8796093022208000 (-44).

(** [500.0001], [845.2], [120.0] and [-5.0] as Python reads them. *)
Definition f500_0001 : float := S754_finite false 8796094781426604 (-44).
Definition f845_2 : float := S754_finite false 7434457822370202 (-43).
Definition f120 : float := S754_finite false 8444249301319680 (-46).
Definition fneg5 : float := S754_finite true 5629499534213120 (-50).

Definition inf : float := S754_infinity false.
Definition neg_inf : float := S754_infinity true.
Definition nan : float := S754_nan.

(** An exception object; [str e] is its message. *)
Inductive exn : Type := Exception (msg : string).

Definition str (e : exn) : string := let 'Exception msg := e in msg.

End Py.

(** ** Effects: calls to [subprocess] *)

Module Eff.

Import Py.

(** A call the program issues to the operating system. *)
Inductive os_call : Type :=
| subprocess_run (args : list string)
| subprocess_Popen (args : list string).

(** The calls issued so far, oldest first. *)
Definition trace : Type := list os_call.

(** The host: [Some e] when the call raises [e] (the executable cannot be
    started), [None] when the call goes through. *)
Definition OS : Type := os_call -> option exn.

Inductive outcome (A : Type) : Type :=
| Returned (a : A)
| Raised (e : exn).

Arguments Returned {A} a.
Arguments Raised {A} e.

Definition M (A : Type) : Type := OS -> trace -> trace * outcome A.

Definition ret {A} (a : A) : M A := fun _ tr => (tr, Returned a).

Definition bind {A B} (c : M A) (k : A -> M B) : M B :=
  fun os tr =>
    match c os tr with
    | (tr', Returned a) => k a os tr'
    | (tr', Raised e) => (tr', Raised e)
    end.

(** [try: c  except Exception as e: h e] *)
Definition try_except {A} (c : M A) (h : exn -> M A) : M A :=
  fun os tr =>
    match c os tr with
    | (tr', Returned a) => (tr', Returned a)
    | (tr', Raised e) => h e os tr'
    end.

(** Issue [c]: it is recorded, and it raises when the host says so. *)
Definition call (c : os_call) : M unit :=
  fun os tr =>
    ((tr ++ [c])%list, match os c with None => Returned tt | Some e => Raised e end).

Declare Scope eff_scope.
Delimit Scope eff_scope with eff.

Notation "x <- c ;; k" := (bind c (fun x => k))
  (at level 100, c at next level, right associativity) : eff_scope.
Notation "c ;;; k" := (bind c (fun _ => k))
  (at level 100, right associativity) : eff_scope.

End Eff.

(** ** The tools of [sentinel.py] *)

Module Sentinel.

Import Py Eff.

(** The two strings [assess_human_cost] returns. *)
Inductive AvailabilityStatus : Type := AVAILABLE | FATIGUE_RISK.

Definition status_name (a : AvailabilityStatus) : string :=
  match a with
  | AVAILABLE => "AVAILABLE"
  | FATIGUE_RISK => "FATIGUE_RISK"
  end.

(** The three interdiction types of [active_ui_interdiction]. *)
Inductive InterdictionAction : Type :=
| CLOSE_STRESS_APPS
| LOCK_WORKSTATION
| NOTIFY_RESPONDER.

Definition action_name (a : InterdictionAction) : string :=
  match a with
  | CLOSE_STRESS_APPS => "CLOSE_STRESS_APPS"
  | LOCK_WORKSTATION => "LOCK_WORKSTATION"
  | NOTIFY_RESPONDER => "NOTIFY_RESPONDER"
  end.

(** The three protocols named in the docstring of
    [execute_defense_protocol]. *)
Inductive Protocol : Type := WATCH | PAGE | MERCY.

(** [assess_human_cost], as a function of [denver_now.hour]. *)
Definition assess_human_cost (current_hour : Z) : string :=
  if ((23 <=? current_hour) || (current_hour <? 7))%Z
  then "FATIGUE_RISK"
  else "AVAILABLE".

Definition CLOSE_OK : string :=
  "INTERDICTION SUCCESS: Stress-inducing applications terminated. Sensory load reduced.".

Definition LOCK_OK : string :=
  "INTERDICTION SUCCESS: Workstation locked. Rest protocol enforced.".

Definition lock_failed (e : exn) : string :=
  "INTERDICTION FAILED: Could not lock workstation. Error: " ++ str e.

Definition NOTIFY_OK : string :=
  "INTERDICTION SUCCESS: Fatigue notification delivered to responder UI.".

Definition unknown_type (interdiction_type : string) : string :=
  "UNKNOWN INTERDICTION TYPE: " ++ interdiction_type.

Definition lock_call : os_call :=
  subprocess_run ["rundll32.exe"; "user32.dll,LockWorkStation"].

Definition msg : string :=
  "FATIGUE BREACH DETECTED. SENTINEL IS EXECUTING MERCY PROTOCOL. GO TO SLEEP.".

Definition ps_cmd : string :=
  "Add-Type -AssemblyName PresentationFramework; [System.Windows.MessageBox]::Show('"
    ++ msg ++ "', 'Blackglass Sentinel')".

Definition notify_call : os_call :=
  subprocess_Popen ["powershell"; "-Command"; ps_cmd].

(** [active_ui_interdiction] (sentinel.py, lines 75-104).  Only the lock is
    inside [try]/[except]; [subprocess.Popen] is called bare. *)
Definition active_ui_interdiction (interdiction_type : string) : M string :=
  if interdiction_type =? "CLOSE_STRESS_APPS" then
    ret CLOSE_OK
  else if interdiction_type =? "LOCK_WORKSTATION" then
    try_except
      (call lock_call ;;; ret LOCK_OK)%eff
      (fun e => ret (lock_failed e))
  else if interdiction_type =? "NOTIFY_RESPONDER" then
    (call notify_call ;;; ret NOTIFY_OK)%eff
  else
    ret (unknown_type interdiction_type).

(** The f-string of line 118. *)
Definition mercy_line (interdiction_result : string) : string :=
  "MERCY PROTOCOL ACTIVATED: Latency breach during high fatigue risk. Auto-Rollback triggered. DO NOT PAGE ENGINEERS. "
    ++ interdiction_result.

Definition PAGE_LINE : string :=
  "PAGING PROTOCOL: Latency breach detected. Engineering responders are AVAILABLE. Paging now.".

Definition WATCH_LINE : string :=
  "WATCH PROTOCOL: System status within acceptable deviation. Monitoring entropy vectors.".

(** [execute_defense_protocol] (sentinel.py, lines 107-122).  A status that
    matches neither string leaves the outer [if] and reaches the final
    [return]. *)
Definition execute_defense_protocol
    (latency_ms : float) (human_status : string) : M string :=
  if gt latency_ms f500 then
    if human_status =? "FATIGUE_RISK" then
      (interdiction_result <- active_ui_interdiction "NOTIFY_RESPONDER" ;;
       ret (mercy_line interdiction_result))%eff
    else if human_status =? "AVAILABLE" then
      ret PAGE_LINE
    else
      ret WATCH_LINE
  else
    ret WATCH_LINE.

(** The protocol a caller reads off a returned status line: its label. *)
Definition protocol_of_line (line : string) : option Protocol :=
  if prefix "MERCY PROTOCOL" line then Some MERCY
  else if prefix "PAGING PROTOCOL" line then Some PAGE
  else if prefix "WATCH PROTOCOL" line then Some WATCH
  else None.

(** The interdiction a recorded call belongs to. *)
Definition action_of_call (c : os_call) : option InterdictionAction :=
  match c with
  | subprocess_run ("rundll32.exe" :: _) => Some LOCK_WORKSTATION
  | subprocess_Popen ("powershell" :: _) => Some NOTIFY_RESPONDER
  | _ => None
  end.

(** The interdictions a sequence of calls carries out, in order. *)
Definition dispatched (tr : trace) : list InterdictionAction :=
  flat_map
    (fun c => match action_of_call c with Some a => [a] | None => [] end)
    tr.

End Sentinel.

(** ** Hosts used in the examples *)

Module Hosts.

Import Py Eff Sentinel.

(** Every call goes through. *)
Definition os_ok : OS := fun _ => None.

(** What [subprocess] raises when [powershell] is not installed. *)
Definition no_powershell : exn :=
  Exception "[Errno 2] No such file or directory: 'powershell'".

(** A host without [powershell]: starting it raises [FileNotFoundError]. *)
Definition os_no_powershell : OS :=
  fun c =>
    match c with
    | subprocess_Popen ("powershell" :: _) => Some no_powershell
    | _ => None
    end.

(** What [subprocess] raises when [rundll32.exe] is not installed. *)
Definition no_rundll32 : exn :=
  Exception "[Errno 2] No such file or directory: 'rundll32.exe'".

(** A host with neither executable. *)
Definition os_bare : OS :=
  fun c =>
    match c with
    | subprocess_Popen ("powershell" :: _) => Some no_powershell
    | subprocess_run ("rundll32.exe" :: _) => Some no_rundll32
    | _ => None
    end.

End Hosts.

(** ** Reading the dispatcher's message *)

Module Reading.

Import Py Eff Sentinel.

(** Whether a dispatcher message announces success: its label. *)
Definition reports_success (message : string) : bool :=
  prefix "INTERDICTION SUCCESS" message.

(** The calls a dispatch of [interdiction_type] issues. *)
Definition calls_of (interdiction_type : string) : list os_call :=
  if interdiction_type =? "LOCK_WORKSTATION" then [lock_call]
  else if interdiction_type =? "NOTIFY_RESPONDER" then [notify_call]
  else [].

(** The text that precedes the dispatcher's message in the MERCY line. *)
Definition mercy_head : string := mercy_line "".


(** What follows the first [n] characters of [s]. *)
Definition drop (n : nat) (s : string) : string :=
  substring n (length s - n) s.

End Reading.

Import Py Eff Sentinel Hosts Reading.

(** ** The float constants *)

Lemma constants_are_binary64 :
  forallb is_binary64 [f500; f500_0001; f845_2; f120; fneg5; inf; neg_inf; nan] = true.
Proof. vm_compute. reflexivity. Qed.

Lemma constants_read_decimals :
  closest_to 500 1 f500 = true /\
  closest_to 5000001 10000 f500_0001 = true /\
  closest_to 8452 10 f845_2 = true /\
  closest_to 120 1 f120 = true /\
  closest_to (-5) 1 fneg5 = true.
Proof. vm_compute. repeat split. Qed.

(** ** Comparisons *)

Section Comparisons.

Lemma compare_cont_flip (p q : positive) :
  Pos.compare_cont Eq q p = CompOpp (Pos.compare_cont Eq p q).
Proof. symmetry. exact (Pos.compare_cont_antisym p q Eq). Qed.

(** [x <= y] excludes [x > y]. *)
Lemma le_not_gt (x y : float) : le x y = true -> gt x y = false.
Proof.
  unfold le, gt, SFleb, SFltb.
  destruct x as [sx | sx | | sx mx ex], y as [sy | sy | | sy my ey];
    simpl; try (destruct sx); try (destruct sy); simpl;
    try discriminate; try reflexivity.
  - rewrite (Z.compare_antisym ex ey), (compare_cont_flip mx my).
    destruct (ex ?= ey)%Z; simpl; try discriminate; try reflexivity.
    destruct (Pos.compare_cont Eq mx my); simpl; try discriminate; reflexivity.
  - rewrite (Z.compare_antisym ex ey), (compare_cont_flip mx my).
    destruct (ex ?= ey)%Z; simpl; try discriminate; try reflexivity.
    destruct (Pos.compare_cont Eq mx my); simpl; try discriminate; reflexivity.
Qed.

(** NaN is neither above nor at most anything. *)
Lemma nan_unordered (y : float) : gt nan y = false /\ le nan y = false.
Proof. destruct y; split; reflexivity. Qed.

(** A negative latency is not above the threshold. *)
Lemma negative_not_gt_500 (x : float) : negative x = true -> gt x f500 = false.
Proof.
  unfold negative, gt, SFltb.
  destruct x as [s | s | | s m e]; simpl; try destruct s;
    try discriminate; reflexivity.
Qed.

End Comparisons.

(** ** What each run does *)

Section Runs.

Variables (os : OS) (tr : trace).

Lemma close_run :
  active_ui_interdiction "CLOSE_STRESS_APPS" os tr = (tr, Returned CLOSE_OK).
Proof. reflexivity. Qed.

(** The lock is wrapped in [try]/[except]: a failed call comes back as a
    message. *)
Lemma lock_run :
  active_ui_interdiction "LOCK_WORKSTATION" os tr =
  ((tr ++ [lock_call])%list,
   Returned match os lock_call with
            | None => LOCK_OK
            | Some e => lock_failed e
            end).
Proof.
  unfold active_ui_interdiction, try_except, bind, call, ret; simpl.
  destruct (os lock_call); reflexivity.
Qed.

(** The notification is not: a failed call propagates. *)
Lemma notify_run :
  active_ui_interdiction "NOTIFY_RESPONDER" os tr =
  ((tr ++ [notify_call])%list,
   match os notify_call with
   | None => Returned NOTIFY_OK
   | Some e => Raised e
   end).
Proof.
  unfold active_ui_interdiction, bind, call, ret; simpl.
  destruct (os notify_call); reflexivity.
Qed.

Lemma unknown_run (interdiction_type : string) :
  interdiction_type <> "CLOSE_STRESS_APPS" ->
  interdiction_type <> "LOCK_WORKSTATION" ->
  interdiction_type <> "NOTIFY_RESPONDER" ->
  active_ui_interdiction interdiction_type os tr =
  (tr, Returned (unknown_type interdiction_type)).
Proof.
  intros Hc Hl Hn. unfold active_ui_interdiction.
  apply String.eqb_neq in Hc, Hl, Hn. rewrite Hc, Hl, Hn. reflexivity.
Qed.

Lemma not_above_watches (latency_ms : float) (human_status : string) :
  gt latency_ms f500 = false ->
  execute_defense_protocol latency_ms human_status os tr =
  (tr, Returned WATCH_LINE).
Proof. intros H. unfold execute_defense_protocol. rewrite H. reflexivity. Qed.

Lemma above_available_pages (latency_ms : float) :
  gt latency_ms f500 = true ->
  execute_defense_protocol latency_ms "AVAILABLE" os tr =
  (tr, Returned PAGE_LINE).
Proof. intros H. unfold execute_defense_protocol. rewrite H. reflexivity. Qed.

Lemma above_fatigue_mercy (latency_ms : float) :
  gt latency_ms f500 = true ->
  execute_defense_protocol latency_ms "FATIGUE_RISK" os tr =
  ((tr ++ [notify_call])%list,
   match os notify_call with
   | None => Returned (mercy_line NOTIFY_OK)
   | Some e => Raised e
   end).
Proof.
  intros H. unfold execute_defense_protocol. rewrite H.
  change ("FATIGUE_RISK" =? "FATIGUE_RISK") with true; cbv iota.
  unfold bind. rewrite notify_run.
  destruct (os notify_call); reflexivity.
Qed.

Lemma above_other_watches (latency_ms : float) (human_status : string) :
  human_status <> "FATIGUE_RISK" ->
  human_status <> "AVAILABLE" ->
  execute_defense_protocol latency_ms human_status os tr =
  (tr, Returned WATCH_LINE).
Proof.
  intros Hf Ha. unfold execute_defense_protocol.
  apply String.eqb_neq in Hf, Ha. rewrite Hf, Ha.
  destruct (gt latency_ms f500); reflexivity.
Qed.

End Runs.

(** ** Labels of the status lines *)

Lemma watch_label : protocol_of_line WATCH_LINE = Some WATCH.
Proof. reflexivity. Qed.

Lemma page_label : protocol_of_line PAGE_LINE = Some PAGE.
Proof. reflexivity. Qed.

Lemma mercy_label (interdiction_result : string) :
  protocol_of_line (mercy_line interdiction_result) = Some MERCY.
Proof. reflexivity. Qed.

Create HintDb sentinel.

#[local] Hint Resolve watch_label page_label mercy_label : sentinel.
#[local] Hint Resolve not_above_watches above_available_pages
  above_fatigue_mercy above_other_watches le_not_gt : sentinel.

(** ** The decision policy *)

(** The 500 ms policy, branch by branch, on every host.  A latency at most
    500 returns the WATCH line; a latency above 500 with AVAILABLE returns
    the PAGE line; a latency above 500 with FATIGUE_RISK dispatches
    NOTIFY_RESPONDER and then returns the MERCY line if the host started the
    notification process, and raises the host's exception if it did not.
    The three lines carry three different labels. *)
Theorem decision_policy
    (os : OS) (tr : trace) (latency_ms : float) (a : AvailabilityStatus) :
  let r := execute_defense_protocol latency_ms (status_name a) os tr in
  (le latency_ms f500 = true -> r = (tr, Returned WATCH_LINE)) /\
  (gt latency_ms f500 = true -> a = AVAILABLE -> r = (tr, Returned PAGE_LINE)) /\
  (gt latency_ms f500 = true -> a = FATIGUE_RISK ->
     r = ((tr ++ [notify_call])%list,
          match os notify_call with
          | None => Returned (mercy_line NOTIFY_OK)
          | Some e => Raised e
          end)) /\
  protocol_of_line WATCH_LINE = Some WATCH /\
  protocol_of_line PAGE_LINE = Some PAGE /\
  (forall m, protocol_of_line (mercy_line m) = Some MERCY).
Proof.
  cbv zeta. split; [| split; [| split]].
  - intros H. apply not_above_watches, le_not_gt, H.
  - intros H ->. apply above_available_pages, H.
  - intros H ->. apply above_fatigue_mercy, H.
  - auto with sentinel.
Qed.

Lemma decision_policy_witness :
  execute_defense_protocol f120 "FATIGUE_RISK" os_ok [] = ([], Returned WATCH_LINE) /\
  execute_defense_protocol f845_2 "AVAILABLE" os_ok [] = ([], Returned PAGE_LINE) /\
  execute_defense_protocol f845_2 "FATIGUE_RISK" os_ok [] =
    ([notify_call], Returned (mercy_line NOTIFY_OK)).
Proof.
  split; [| split].
  - apply (decision_policy os_ok [] f120 FATIGUE_RISK). reflexivity.
  - apply (decision_policy os_ok [] f845_2 AVAILABLE); reflexivity.
  - apply (decision_policy os_ok [] f845_2 FATIGUE_RISK); reflexivity.
Defined.

(** The two sides of the threshold, on every host.  A latency of exactly
    500 returns the WATCH line whatever the status; 500.0001 (the binary64
    value Python reads for it) with FATIGUE_RISK takes the MERCY branch,
    which returns the MERCY line if the host started the notification
    process and raises the host's exception if it did not. *)
Theorem threshold_is_exclusive (os : OS) (tr : trace) :
  (forall human_status,
     execute_defense_protocol f500 human_status os tr = (tr, Returned WATCH_LINE)) /\
  execute_defense_protocol f500_0001 "FATIGUE_RISK" os tr =
    ((tr ++ [notify_call])%list,
     match os notify_call with
     | None => Returned (mercy_line NOTIFY_OK)
     | Some e => Raised e
     end) /\
  closest_to 5000001 10000 f500_0001 = true /\
  protocol_of_line WATCH_LINE = Some WATCH /\
  protocol_of_line (mercy_line NOTIFY_OK) = Some MERCY.
Proof.
  split; [| split; [| repeat split]].
  - intros human_status. apply not_above_watches. reflexivity.
  - apply above_fatigue_mercy. reflexivity.
Qed.

(** C1, at the failing input.  With latency 845.2, which is above 500, and
    FATIGUE_RISK, on a host without [powershell], the function returns no
    protocol at all: the run ends in the exception of the notification
    call.  So it is not the case that every latency above 500 with
    FATIGUE_RISK yields a MERCY line. *)
Theorem policy_yields_no_protocol_on_refused_notify :
  let r :=
    execute_defense_protocol f845_2 (status_name FATIGUE_RISK) os_no_powershell [] in
  gt f845_2 f500 = true /\
  r = ([notify_call], Raised no_powershell) /\
  (forall line, snd r <> Returned line) /\
  ~ (forall (os : OS) (tr : trace) (latency_ms : float),
       gt latency_ms f500 = true ->
       exists tr' line,
         execute_defense_protocol latency_ms (status_name FATIGUE_RISK) os tr =
           (tr', Returned line) /\
         protocol_of_line line = Some MERCY).
Proof.
  cbv zeta. split; [ reflexivity | ].
  split; [ reflexivity | ].
  split.
  - intros line E. discriminate E.
  - intros H.
    destruct (H os_no_powershell [] f845_2 eq_refl) as (tr' & line & E & _).
    discriminate E.
Qed.

(** C4, at the failing input.  500.0001 is above the threshold and exactly
    500 is not, so the boundary is where the claim puts it; but with
    500.0001 and FATIGUE_RISK on a host without [powershell] the run ends
    in the exception of the notification call and no MERCY line is
    returned. *)
Theorem boundary_mercy_fails_on_refused_notify :
  let r := execute_defense_protocol f500_0001 "FATIGUE_RISK" os_no_powershell [] in
  closest_to 5000001 10000 f500_0001 = true /\
  gt f500_0001 f500 = true /\
  gt f500 f500 = false /\
  r = ([notify_call], Raised no_powershell) /\
  (forall line, snd r <> Returned line) /\
  (forall human_status,
     execute_defense_protocol f500 human_status os_no_powershell [] =
     ([], Returned WATCH_LINE)).
Proof.
  cbv zeta. repeat (split; [ reflexivity | ]).
  split.
  - intros line E. discriminate E.
  - intros human_status. apply not_above_watches. reflexivity.
Qed.

(** C10. Above the threshold, a status that is neither of the two exact
    strings falls through both tests: the WATCH line is returned and
    nothing is dispatched. *)
Theorem unknown_status_falls_through
    (os : OS) (tr : trace) (latency_ms : float) (human_status : string) :
  gt latency_ms f500 = true ->
  human_status <> "FATIGUE_RISK" ->
  human_status <> "AVAILABLE" ->
  execute_defense_protocol latency_ms human_status os tr =
  (tr, Returned WATCH_LINE).
Proof. intros _ Hf Ha. auto with sentinel. Qed.

Lemma unknown_status_falls_through_witness :
  execute_defense_protocol f845_2 "fatigue_risk" os_bare [] =
  ([], Returned WATCH_LINE).
Proof.
  apply (unknown_status_falls_through os_bare [] f845_2 "fatigue_risk").
  - reflexivity.
  - discriminate.
  - discriminate.
Defined.

(** C7. An execution that ends in the WATCH line or in the PAGE line has
    dispatched nothing: no call was issued, and the returned line is the
    fixed status string of that protocol. *)
Theorem watch_and_page_dispatch_nothing
    (os : OS) (tr tr' : trace) (latency_ms : float)
    (human_status line : string) :
  execute_defense_protocol latency_ms human_status os tr = (tr', Returned line) ->
  (protocol_of_line line = Some WATCH ->
     tr' = tr /\ dispatched tr' = dispatched tr /\ line = WATCH_LINE) /\
  (protocol_of_line line = Some PAGE ->
     tr' = tr /\ dispatched tr' = dispatched tr /\ line = PAGE_LINE).
Proof.
  unfold execute_defense_protocol.
  destruct (gt latency_ms f500);
    [ destruct (human_status =? "FATIGUE_RISK");
      [ | destruct (human_status =? "AVAILABLE") ] | ].
  - unfold bind. rewrite notify_run.
    destruct (os notify_call); [ discriminate | ].
    unfold ret. intros H. inversion H; subst. rewrite mercy_label.
    split; discriminate.
  - unfold ret. intros H. inversion H; subst. rewrite page_label.
    split; [ discriminate | auto ].
  - unfold ret. intros H. inversion H; subst. rewrite watch_label.
    split; [ auto | discriminate ].
  - unfold ret. intros H. inversion H; subst. rewrite watch_label.
    split; [ auto | discriminate ].
Qed.

Lemma watch_and_page_dispatch_nothing_witness :
  execute_defense_protocol f845_2 "AVAILABLE" os_bare [] = ([], Returned PAGE_LINE) /\
  protocol_of_line PAGE_LINE = Some PAGE /\
  (([] : trace) = [] /\ dispatched [] = dispatched [] /\ PAGE_LINE = PAGE_LINE).
Proof.
  split; [ reflexivity | split; [ reflexivity | ] ].
  apply (watch_and_page_dispatch_nothing os_bare [] [] f845_2 "AVAILABLE" PAGE_LINE).
  - reflexivity.
  - reflexivity.
Defined.

(** ** The availability oracle *)

(** C8. For every hour, [assess_human_cost] returns exactly one of the two
    statuses, and it returns FATIGUE_RISK exactly when the hour is at least
    23 or below 7: hour 23 is FATIGUE_RISK and hour 7 is AVAILABLE. *)
Theorem rest_window (current_hour : Z) :
  (exists a, assess_human_cost current_hour = status_name a /\
             forall b, assess_human_cost current_hour = status_name b -> b = a) /\
  (assess_human_cost current_hour = status_name FATIGUE_RISK <->
     (23 <= current_hour \/ current_hour < 7)%Z) /\
  (assess_human_cost current_hour = status_name AVAILABLE <->
     (7 <= current_hour < 23)%Z) /\
  assess_human_cost 23 = status_name FATIGUE_RISK /\
  assess_human_cost 7 = status_name AVAILABLE.
Proof.
  unfold assess_human_cost.
  destruct (Z.leb_spec 23 current_hour) as [H23 | H23];
    destruct (Z.ltb_spec current_hour 7) as [H7 | H7]; simpl.
  all: repeat split; try discriminate; try lia; auto.
  all: try (exists FATIGUE_RISK; split; [ reflexivity | ];
            intros [] E; [ discriminate E | reflexivity ]).
  all: try (exists AVAILABLE; split; [ reflexivity | ];
            intros [] E; [ reflexivity | discriminate E ]).
  all: intros _; lia.
Qed.

Lemma rest_window_witness :
  assess_human_cost 3 = status_name FATIGUE_RISK /\
  assess_human_cost 12 = status_name AVAILABLE.
Proof.
  split.
  - destruct (rest_window 3) as (_ & [_ H] & _). apply H. right. lia.
  - destruct (rest_window 12) as (_ & _ & [_ H] & _). apply H. lia.
Defined.

(** ** Effects of the decision *)

(** The calls a run of the decision adds, in every host. *)
Lemma decision_trace
    (os : OS) (tr : trace) (latency_ms : float) (human_status : string) :
  fst (execute_defense_protocol latency_ms human_status os tr) =
  if gt latency_ms f500 && (human_status =? "FATIGUE_RISK")
  then (tr ++ [notify_call])%list
  else tr.
Proof.
  unfold execute_defense_protocol.
  destruct (gt latency_ms f500); simpl; [ | reflexivity ].
  destruct (human_status =? "FATIGUE_RISK").
  - unfold bind. rewrite notify_run. destruct (os notify_call); reflexivity.
  - destruct (human_status =? "AVAILABLE"); reflexivity.
Qed.

Lemma dispatched_app (tr1 tr2 : trace) :
  dispatched (tr1 ++ tr2)%list = (dispatched tr1 ++ dispatched tr2)%list.
Proof. unfold dispatched. apply flat_map_app. Qed.

(** Refutation of C3 as stated: on a valid latency (845.2, a finite
    non-negative binary64 value) the decision function itself starts the
    notification process. *)
Lemma decision_has_side_effects :
  ~ (forall (os : OS) (tr : trace) (latency_ms : float) (human_status : string),
       is_binary64 latency_ms = true ->
       isfinite latency_ms = true ->
       negative latency_ms = false ->
       fst (execute_defense_protocol latency_ms human_status os tr) = tr).
Proof.
  intros H.
  specialize (H os_ok [] f845_2 "FATIGUE_RISK" eq_refl eq_refl eq_refl).
  discriminate H.
Qed.

(** C3, amended. The decision function leaves the external state unchanged
    exactly when it does not select MERCY (latency not above 500, or a
    status other than FATIGUE_RISK); when it selects MERCY it dispatches
    NOTIFY_RESPONDER itself, once, and that is its only effect. *)
Theorem decision_effects
    (os : OS) (tr : trace) (latency_ms : float) (human_status : string) :
  let tr' := fst (execute_defense_protocol latency_ms human_status os tr) in
  (gt latency_ms f500 && (human_status =? "FATIGUE_RISK") = false -> tr' = tr) /\
  (gt latency_ms f500 && (human_status =? "FATIGUE_RISK") = true ->
     tr' = (tr ++ [notify_call])%list /\
     dispatched tr' = (dispatched tr ++ [NOTIFY_RESPONDER])%list).
Proof.
  cbv zeta. rewrite decision_trace.
  split; intros ->; [ reflexivity | ].
  split; [ reflexivity | ]. rewrite dispatched_app. reflexivity.
Qed.

Lemma decision_effects_witness :
  fst (execute_defense_protocol f120 "FATIGUE_RISK" os_ok []) = [] /\
  (fst (execute_defense_protocol f845_2 "FATIGUE_RISK" os_ok []) = [notify_call] /\
   dispatched (fst (execute_defense_protocol f845_2 "FATIGUE_RISK" os_ok [])) =
     [NOTIFY_RESPONDER]).
Proof.
  split.
  - apply (decision_effects os_ok [] f120 "FATIGUE_RISK"). reflexivity.
  - apply (decision_effects os_ok [] f845_2 "FATIGUE_RISK"). reflexivity.
Defined.

(** ** Invalid latencies *)

(** Refutation of C2 as stated: the latency -5.0 is classified, as WATCH;
    so a negative latency is not always refused. *)
Lemma negative_latency_is_classified :
  execute_defense_protocol fneg5 "FATIGUE_RISK" os_ok [] = ([], Returned WATCH_LINE) /\
  ~ (forall (os : OS) (tr : trace) (latency_ms : float) (human_status : string),
       negative latency_ms = true \/ isfinite latency_ms = false ->
       exists tr' e,
         execute_defense_protocol latency_ms human_status os tr = (tr', Raised e)).
Proof.
  split; [ reflexivity | ].
  intros H.
  destruct (H os_ok [] fneg5 "FATIGUE_RISK" (or_introl eq_refl)) as (tr' & e & E).
  discriminate E.
Qed.

(** C2, amended. The function has no input check.  A negative latency
    (minus infinity included) and NaN fail the test [latency_ms > 500]: the
    WATCH line is returned for every status and nothing is dispatched.
    Plus infinity passes the test and is handled as every latency above
    500 is. *)
Theorem invalid_latency_is_classified
    (os : OS) (tr : trace) (latency_ms : float) (human_status : string) :
  (negative latency_ms = true \/ latency_ms = nan ->
     execute_defense_protocol latency_ms human_status os tr =
     (tr, Returned WATCH_LINE)) /\
  (latency_ms = inf ->
     forall y, gt y f500 = true ->
       execute_defense_protocol latency_ms human_status os tr =
       execute_defense_protocol y human_status os tr).
Proof.
  split.
  - intros [H | ->]; apply not_above_watches.
    + apply negative_not_gt_500, H.
    + reflexivity.
  - intros -> y Hy. unfold execute_defense_protocol. rewrite Hy. reflexivity.
Qed.

Lemma invalid_latency_is_classified_witness :
  execute_defense_protocol fneg5 "AVAILABLE" os_ok [] = ([], Returned WATCH_LINE) /\
  execute_defense_protocol inf "AVAILABLE" os_ok [] =
  execute_defense_protocol f845_2 "AVAILABLE" os_ok [].
Proof.
  split.
  - apply (invalid_latency_is_classified os_ok [] fneg5 "AVAILABLE").
    left. reflexivity.
  - apply (invalid_latency_is_classified os_ok [] inf "AVAILABLE").
    + reflexivity.
    + reflexivity.
Defined.

(** ** The dispatcher and failed dispatches *)

(** Which dispatches raise: the notification, on a host that cannot start
    the notification process, and nothing else. *)
Lemma dispatcher_raises_iff (os : OS) (tr : trace) (a : InterdictionAction) :
  (exists e, snd (active_ui_interdiction (action_name a) os tr) = Raised e) <->
  a = NOTIFY_RESPONDER /\ os notify_call <> None.
Proof.
  destruct a; simpl action_name.
  - rewrite close_run. simpl. split.
    + intros [e E]. discriminate E.
    + intros [E _]. discriminate E.
  - rewrite lock_run. simpl. split.
    + intros [e E]. discriminate E.
    + intros [E _]. discriminate E.
  - rewrite notify_run. simpl. destruct (os notify_call) as [e |]; split.
    + intros _. split; [ reflexivity | discriminate ].
    + intros _. exists e. reflexivity.
    + intros [e E]. discriminate E.
    + intros [_ E]. contradiction E. reflexivity.
Qed.

(** When the notification process starts, the MERCY run dispatches
    NOTIFY_RESPONDER once and returns the MERCY line with the dispatcher's
    message. *)
Lemma mercy_with_working_notify (os : OS) (tr : trace) (latency_ms : float) :
  gt latency_ms f500 = true ->
  os notify_call = None ->
  execute_defense_protocol latency_ms "FATIGUE_RISK" os tr =
  ((tr ++ [notify_call])%list, Returned (mercy_line NOTIFY_OK)).
Proof. intros H E. rewrite above_fatigue_mercy, E by assumption. reflexivity. Qed.

(** C9, at the failing input. On a host without [powershell] the dispatch
    of NOTIFY_RESPONDER raises instead of returning a message, where the
    dispatch of LOCK_WORKSTATION on a host without [rundll32.exe] returns
    its failure message. *)
Theorem notify_dispatch_raises :
  active_ui_interdiction (action_name NOTIFY_RESPONDER) os_no_powershell [] =
    ([notify_call], Raised no_powershell) /\
  active_ui_interdiction (action_name LOCK_WORKSTATION) os_bare [] =
    ([lock_call], Returned (lock_failed no_rundll32)).
Proof. split; reflexivity. Qed.

(** C5, at the failing input. With latency 845.2 and FATIGUE_RISK on a host
    without [powershell], NOTIFY_RESPONDER is dispatched once and the run
    ends in the dispatcher's exception: no status line, hence no record of
    the attempted action, is produced. *)
Theorem mercy_failed_notify_yields_no_record :
  let r := execute_defense_protocol f845_2 "FATIGUE_RISK" os_no_powershell [] in
  dispatched (fst r) = [NOTIFY_RESPONDER] /\
  snd r = Raised no_powershell /\
  (forall line, snd r <> Returned line).
Proof.
  cbv zeta. rewrite above_fatigue_mercy by reflexivity.
  split; [ reflexivity | split; [ reflexivity | ] ].
  intros line E. discriminate E.
Qed.

(** C6, on every failing dispatch. Whenever the MERCY branch is taken and
    the dispatch of NOTIFY_RESPONDER fails, the failure is not recorded in
    a returned line and no MERCY label is returned: the run ends in the
    exception. *)
Theorem mercy_dispatch_failure_aborts
    (os : OS) (tr : trace) (latency_ms : float) (e : exn) :
  gt latency_ms f500 = true ->
  os notify_call = Some e ->
  execute_defense_protocol latency_ms "FATIGUE_RISK" os tr =
  ((tr ++ [notify_call])%list, Raised e).
Proof. intros H E. rewrite above_fatigue_mercy, E by assumption. reflexivity. Qed.

Lemma mercy_dispatch_failure_aborts_witness :
  execute_defense_protocol f845_2 "FATIGUE_RISK" os_no_powershell [] =
  ([notify_call], Raised no_powershell).
Proof.
  apply (mercy_dispatch_failure_aborts os_no_powershell [] f845_2 no_powershell).
  - reflexivity.
  - reflexivity.
Defined.

(** * Further properties of the tools *)

(** ** Strings *)

Lemma substring_all (s : string) : substring 0 (length s) s = s.
Proof. induction s as [| c s IH]; simpl; [ reflexivity | now rewrite IH ]. Qed.

Lemma length_app (a b : string) : length (a ++ b) = length a + length b.
Proof. induction a as [| c a IH]; simpl; [ reflexivity | now rewrite IH ]. Qed.

(** Dropping a head gives back what was appended to it. *)
Lemma drop_app (a b : string) : drop (length a) (a ++ b) = b.
Proof.
  unfold drop. rewrite length_app.
  replace (length a + length b - length a) with (length b) by lia.
  induction a as [| c a IH]; simpl.
  - apply substring_all.
  - exact IH.
Qed.

(** ** The dispatcher on every string *)

(** X1. Whatever string it is given and whatever the host, the dispatcher
    raises in one situation only: the type is NOTIFY_RESPONDER and the host
    refuses to start the notification process. *)
Theorem dispatch_raises_only_on_refused_notify
    (os : OS) (tr : trace) (interdiction_type : string) :
  (exists e, snd (active_ui_interdiction interdiction_type os tr) = Raised e) <->
  interdiction_type = "NOTIFY_RESPONDER" /\ os notify_call <> None.
Proof.
  destruct (String.eqb_spec interdiction_type "CLOSE_STRESS_APPS") as [-> | Hc];
    [ | destruct (String.eqb_spec interdiction_type "LOCK_WORKSTATION") as [-> | Hl];
        [ | destruct (String.eqb_spec interdiction_type "NOTIFY_RESPONDER") as [-> | Hn] ] ].
  - rewrite close_run. split.
    + intros [e E]. discriminate E.
    + intros [E _]. discriminate E.
  - rewrite lock_run. split.
    + intros [e E]. discriminate E.
    + intros [E _]. discriminate E.
  - rewrite notify_run. simpl. destruct (os notify_call) as [e |]; split.
    + intros _. split; [ reflexivity | discriminate ].
    + intros _. exists e. reflexivity.
    + intros [e E]. discriminate E.
    + intros [_ E]. contradiction E. reflexivity.
  - rewrite unknown_run by assumption. split.
    + intros [e E]. discriminate E.
    + intros [E _]. contradiction (Hn E).
Qed.

Lemma dispatch_raises_only_on_refused_notify_witness :
  exists e, snd (active_ui_interdiction "NOTIFY_RESPONDER" os_bare []) = Raised e.
Proof.
  apply (proj2 (dispatch_raises_only_on_refused_notify os_bare [] "NOTIFY_RESPONDER")).
  split; [ reflexivity | discriminate ].
Defined.

(** X2. A dispatch keeps the calls issued before it and adds at most one:
    the lock call for LOCK_WORKSTATION, the notification call for
    NOTIFY_RESPONDER, and none for CLOSE_STRESS_APPS or any other string,
    whether or not the host lets the call through. *)
Theorem dispatch_issues_at_most_one_call
    (os : OS) (tr : trace) (interdiction_type : string) :
  fst (active_ui_interdiction interdiction_type os tr) =
    (tr ++ calls_of interdiction_type)%list /\
  (List.length (calls_of interdiction_type) <= 1)%nat /\
  calls_of "CLOSE_STRESS_APPS" = [] /\
  dispatched (calls_of interdiction_type) =
    (if interdiction_type =? "LOCK_WORKSTATION" then [LOCK_WORKSTATION]
     else if interdiction_type =? "NOTIFY_RESPONDER" then [NOTIFY_RESPONDER]
     else []).
Proof.
  unfold calls_of.
  destruct (String.eqb_spec interdiction_type "CLOSE_STRESS_APPS") as [-> | Hc];
    [ | destruct (String.eqb_spec interdiction_type "LOCK_WORKSTATION") as [-> | Hl];
        [ | destruct (String.eqb_spec interdiction_type "NOTIFY_RESPONDER") as [-> | Hn] ] ].
  - rewrite close_run. simpl. rewrite app_nil_r. auto.
  - rewrite lock_run. simpl. auto.
  - rewrite notify_run. simpl. auto.
  - rewrite unknown_run by assumption. simpl. rewrite app_nil_r. auto.
Qed.

(** X3. The message a dispatch returns announces success exactly when the
    type is CLOSE_STRESS_APPS (for which nothing is executed), or the type
    is LOCK_WORKSTATION or NOTIFY_RESPONDER and the host let the call
    through.  A refused lock and an unknown type never announce success. *)
Theorem dispatch_message_tells_outcome
    (os : OS) (tr tr' : trace) (interdiction_type message : string) :
  active_ui_interdiction interdiction_type os tr = (tr', Returned message) ->
  (reports_success message = true <->
   interdiction_type = "CLOSE_STRESS_APPS" \/
   (interdiction_type = "LOCK_WORKSTATION" /\ os lock_call = None) \/
   (interdiction_type = "NOTIFY_RESPONDER" /\ os notify_call = None)).
Proof.
  destruct (String.eqb_spec interdiction_type "CLOSE_STRESS_APPS") as [-> | Hc];
    [ | destruct (String.eqb_spec interdiction_type "LOCK_WORKSTATION") as [-> | Hl];
        [ | destruct (String.eqb_spec interdiction_type "NOTIFY_RESPONDER") as [-> | Hn] ] ].
  - rewrite close_run. intros E; inversion E; subst. split; auto.
  - rewrite lock_run. destruct (os lock_call) as [e |];
      intros E; inversion E; subst; split; auto.
    + discriminate.
    + intros [D | [[_ D] | [D _]]]; discriminate D.
  - rewrite notify_run. destruct (os notify_call) as [e |];
      intros E; inversion E; subst. split; auto.
  - rewrite unknown_run by assumption. intros E; inversion E; subst. split.
    + discriminate.
    + intros [D | [[D _] | [D _]]]; contradiction.
Qed.

Lemma dispatch_message_tells_outcome_witness :
  reports_success (lock_failed no_rundll32) = true <->
  "LOCK_WORKSTATION" = "CLOSE_STRESS_APPS" \/
  ("LOCK_WORKSTATION" = "LOCK_WORKSTATION" /\ os_bare lock_call = None) \/
  ("LOCK_WORKSTATION" = "NOTIFY_RESPONDER" /\ os_bare notify_call = None).
Proof.
  apply (dispatch_message_tells_outcome os_bare [] [lock_call]
           "LOCK_WORKSTATION" (lock_failed no_rundll32)).
  reflexivity.
Defined.



(** ** The decision on every input *)

(** X5. A run of [execute_defense_protocol] ends in one of four ways: it
    returns the WATCH line, the PAGE line or the MERCY line that announces
    a delivered notification, each of which carries a protocol label, or it
    raises the host's exception, which happens only above the threshold,
    with FATIGUE_RISK, when the host refuses the notification call. *)
Theorem decision_outcomes
    (os : OS) (tr : trace) (latency_ms : float) (human_status : string) :
  let r := execute_defense_protocol latency_ms human_status os tr in
  (exists line,
     snd r = Returned line /\
     (line = WATCH_LINE \/ line = PAGE_LINE \/ line = mercy_line NOTIFY_OK) /\
     protocol_of_line line <> None) \/
  (exists e,
     snd r = Raised e /\ os notify_call = Some e /\
     gt latency_ms f500 = true /\ human_status = "FATIGUE_RISK").
Proof.
  cbv zeta.
  destruct (gt latency_ms f500) eqn:G.
  - destruct (String.eqb_spec human_status "FATIGUE_RISK") as [-> | Hf].
    + rewrite above_fatigue_mercy by assumption.
      destruct (os notify_call) as [e |].
      * right. exists e. auto.
      * left. exists (mercy_line NOTIFY_OK). simpl.
        split; [ reflexivity | split; [ auto | discriminate ] ].
    + destruct (String.eqb_spec human_status "AVAILABLE") as [-> | Ha].
      * rewrite above_available_pages by assumption.
        left. exists PAGE_LINE. simpl.
        split; [ reflexivity | split; [ auto | discriminate ] ].
      * rewrite above_other_watches by assumption.
        left. exists WATCH_LINE. simpl.
        split; [ reflexivity | split; [ auto | discriminate ] ].
  - rewrite not_above_watches by assumption.
    left. exists WATCH_LINE. simpl.
    split; [ reflexivity | split; [ auto | discriminate ] ].
Qed.

(** X6. The label of a returned line tells which branch ran: MERCY exactly
    when the latency is above 500 and the status is FATIGUE_RISK, PAGE
    exactly when it is above 500 and the status is AVAILABLE, and WATCH
    exactly when it is not above 500 or the status is neither string. *)
Theorem label_reveals_branch
    (os : OS) (tr tr' : trace) (latency_ms : float)
    (human_status line : string) :
  execute_defense_protocol latency_ms human_status os tr = (tr', Returned line) ->
  (protocol_of_line line = Some MERCY <->
     gt latency_ms f500 = true /\ human_status = "FATIGUE_RISK") /\
  (protocol_of_line line = Some PAGE <->
     gt latency_ms f500 = true /\ human_status = "AVAILABLE") /\
  (protocol_of_line line = Some WATCH <->
     gt latency_ms f500 = false \/
     (human_status <> "FATIGUE_RISK" /\ human_status <> "AVAILABLE")).
Proof.
  destruct (gt latency_ms f500) eqn:G.
  - destruct (String.eqb_spec human_status "FATIGUE_RISK") as [-> | Hf].
    + rewrite above_fatigue_mercy by assumption.
      destruct (os notify_call); intros E; inversion E; subst.
      rewrite mercy_label. repeat split; auto; try discriminate.
      * intros [_ D]. discriminate D.
      * intros [D | [D _]]; [ discriminate D | contradiction D; reflexivity ].
    + destruct (String.eqb_spec human_status "AVAILABLE") as [-> | Ha].
      * rewrite above_available_pages by assumption.
        intros E; inversion E; subst. rewrite page_label.
        repeat split; auto; try discriminate.
        -- intros [_ D]. discriminate D.
        -- intros [D | [_ D]]; [ discriminate D | contradiction D; reflexivity ].
      * rewrite above_other_watches by assumption.
        intros E; inversion E; subst. rewrite watch_label.
        repeat split; auto; try discriminate.
        -- intros [_ D]. contradiction.
        -- intros [_ D]. contradiction.
  - rewrite not_above_watches by assumption.
    intros E; inversion E; subst. rewrite watch_label.
    repeat split; auto; try discriminate.
    + intros [D _]. discriminate D.
    + intros [D _]. discriminate D.
Qed.

Lemma label_reveals_branch_witness :
  gt f845_2 f500 = true /\ "AVAILABLE" = "AVAILABLE".
Proof.
  apply (label_reveals_branch os_ok [] [] f845_2 "AVAILABLE" PAGE_LINE).
  - reflexivity.
  - reflexivity.
Defined.

(** ** The decision and the dispatcher *)

(** X7. Above the threshold with FATIGUE_RISK, the decision is the dispatch
    of NOTIFY_RESPONDER with its message wrapped: the same calls are
    issued, the decision raises exactly what the dispatch raises, and when
    the dispatch returns a message the decision returns a line from which
    that message is read back by dropping the fixed MERCY head. *)
Theorem mercy_wraps_dispatch (os : OS) (tr : trace) (latency_ms : float) :
  gt latency_ms f500 = true ->
  let d := active_ui_interdiction "NOTIFY_RESPONDER" os tr in
  let r := execute_defense_protocol latency_ms "FATIGUE_RISK" os tr in
  fst r = fst d /\
  (forall e, snd r = Raised e <-> snd d = Raised e) /\
  (forall message,
     snd d = Returned message ->
     exists line,
       snd r = Returned line /\
       protocol_of_line line = Some MERCY /\
       drop (length mercy_head) line = message).
Proof.
  intros G. cbv zeta.
  rewrite above_fatigue_mercy by assumption. rewrite notify_run.
  destruct (os notify_call) as [e0 |]; simpl.
  - split; [ reflexivity | split ].
    + intros e. split; auto.
    + intros message D. discriminate D.
  - split; [ reflexivity | split ].
    + intros e. split; intros D; discriminate D.
    + intros message D. inversion D; subst.
      exists (mercy_line NOTIFY_OK).
      split; [ reflexivity | split; [ reflexivity | ] ].
      exact (drop_app mercy_head NOTIFY_OK).
Qed.

Lemma mercy_wraps_dispatch_witness :
  fst (execute_defense_protocol f845_2 "FATIGUE_RISK" os_ok []) =
  fst (active_ui_interdiction "NOTIFY_RESPONDER" os_ok []).
Proof.
  apply (mercy_wraps_dispatch os_ok [] f845_2). reflexivity.
Defined.

(** ** Order of latencies *)

(** Above a positive finite bound, and below something else: that is above
    the bound too. *)
Lemma gt_le_trans (m0 : positive) (e0 : Z) (x y : float) :
  gt x (S754_finite false m0 e0) = true ->
  le x y = true ->
  gt y (S754_finite false m0 e0) = true.
Proof.
  unfold gt, le, SFltb, SFleb.
  destruct x as [sx | sx | | sx mx ex], y as [sy | sy | | sy my ey];
    simpl; try destruct sx; try destruct sy; simpl;
    try discriminate; try reflexivity.
  change (Pos.compare_cont Eq m0 mx) with (m0 ?= mx)%positive.
  change (Pos.compare_cont Eq mx my) with (mx ?= my)%positive.
  change (Pos.compare_cont Eq m0 my) with (m0 ?= my)%positive.
  destruct (Z.compare_spec e0 ex) as [E1 | E1 | E1]; try discriminate;
    destruct (Z.compare_spec ex ey) as [E2 | E2 | E2]; try discriminate;
    destruct (Z.compare_spec e0 ey) as [E3 | E3 | E3]; try lia;
    try reflexivity.
  destruct (Pos.compare_spec m0 mx); try discriminate.
  destruct (Pos.compare_spec mx my); try discriminate;
    destruct (Pos.compare_spec m0 my); try lia; reflexivity.
Qed.

(** X8. Escalation is monotone in the latency.  If [x] is above the
    threshold and [x <= y], then [y] is above it and is decided exactly as
    [x] is; if [x] is not above the threshold and [y <= x], then [y] is
    not above it either and both return the WATCH line. *)
Theorem escalation_is_monotone
    (os : OS) (tr : trace) (x y : float) (human_status : string) :
  (gt x f500 = true -> le x y = true ->
     gt y f500 = true /\
     execute_defense_protocol y human_status os tr =
     execute_defense_protocol x human_status os tr) /\
  (gt x f500 = false -> le y x = true ->
     gt y f500 = false /\
     execute_defense_protocol y human_status os tr = (tr, Returned WATCH_LINE) /\
     execute_defense_protocol x human_status os tr = (tr, Returned WATCH_LINE)).
Proof.
  split.
  - intros G L.
    assert (G' : gt y f500 = true) by exact (gt_le_trans _ _ x y G L).
    split; [ exact G' | ].
    unfold execute_defense_protocol. rewrite G, G'. reflexivity.
  - intros G L.
    assert (G' : gt y f500 = false).
    { destruct (gt y f500) eqn:Gy; [ | reflexivity ].
      assert (C : gt x f500 = true) by exact (gt_le_trans _ _ y x Gy L).
      rewrite C in G. discriminate G. }
    split; [ exact G' | ].
    split; apply not_above_watches; assumption.
Qed.

Lemma escalation_is_monotone_witness :
  (gt f845_2 f500 = true /\
   execute_defense_protocol f845_2 "AVAILABLE" os_ok [] =
   execute_defense_protocol f500_0001 "AVAILABLE" os_ok []) /\
  (gt fneg5 f500 = false /\
   execute_defense_protocol fneg5 "AVAILABLE" os_ok [] = ([], Returned WATCH_LINE) /\
   execute_defense_protocol f120 "AVAILABLE" os_ok [] = ([], Returned WATCH_LINE)).
Proof.
  split.
  - apply (escalation_is_monotone os_ok [] f500_0001 f845_2 "AVAILABLE");
      reflexivity.
  - apply (escalation_is_monotone os_ok [] f120 fneg5 "AVAILABLE");
      reflexivity.
Defined.

(** ** A full cycle: the oracle's status fed to the decision *)

(** X9. When the status given to [execute_defense_protocol] is the one
    [assess_human_cost] returns for the hour, the fall-through for an
    unrecognised status is never taken.  A latency not above 500 returns
    the WATCH line; above 500 the hours 7 to 22 return the PAGE line with
    no call issued, and the hours from 23 and below 7 run the MERCY branch;
    above 500 no returned line is labelled WATCH. *)
Theorem cycle_policy
    (os : OS) (tr : trace) (latency_ms : float) (current_hour : Z) :
  let r :=
    execute_defense_protocol latency_ms (assess_human_cost current_hour) os tr in
  (gt latency_ms f500 = false -> r = (tr, Returned WATCH_LINE)) /\
  (gt latency_ms f500 = true -> (7 <= current_hour < 23)%Z ->
     r = (tr, Returned PAGE_LINE)) /\
  (gt latency_ms f500 = true -> (23 <= current_hour \/ current_hour < 7)%Z ->
     r = ((tr ++ [notify_call])%list,
          match os notify_call with
          | None => Returned (mercy_line NOTIFY_OK)
          | Some e => Raised e
          end)) /\
  (gt latency_ms f500 = true ->
     forall line, snd r = Returned line -> protocol_of_line line <> Some WATCH).
Proof.
  cbv zeta. unfold assess_human_cost.
  destruct (Z.leb_spec 23 current_hour) as [H23 | H23];
    destruct (Z.ltb_spec current_hour 7) as [H7 | H7]; simpl;
    (split; [ intros G; apply not_above_watches, G | ]);
    (split; [ intros G H; try lia; apply above_available_pages, G | ]);
    (split; [ intros G H; try lia; apply above_fatigue_mercy, G | ]);
    intros G line.
  all: try (rewrite above_fatigue_mercy by assumption;
            destruct (os notify_call); simpl; intros E; inversion E; subst;
            rewrite mercy_label; discriminate).
  rewrite above_available_pages by assumption.
  simpl; intros E; inversion E; subst. rewrite page_label. discriminate.
Qed.

Lemma cycle_policy_witness :
  execute_defense_protocol f120 (assess_human_cost 3) os_ok [] =
    ([], Returned WATCH_LINE) /\
  execute_defense_protocol f845_2 (assess_human_cost 14) os_ok [] =
    ([], Returned PAGE_LINE) /\
  execute_defense_protocol f845_2 (assess_human_cost 3) os_ok [] =
    ([notify_call], Returned (mercy_line NOTIFY_OK)).
Proof.
  split; [ | split ].
  - destruct (cycle_policy os_ok [] f120 3) as (H & _). apply H. reflexivity.
  - destruct (cycle_policy os_ok [] f845_2 14) as (_ & H & _).
    apply H; [ reflexivity | lia ].
  - destruct (cycle_policy os_ok [] f845_2 3) as (_ & _ & H & _).
    apply H; [ reflexivity | lia ].
Defined.
